(** * calculate_calories.py: the calorie report script

  A shallow embedding of [src/calculate_calories.py].  The script sums the
  calorie column of a fixed list of nutrition log rows, prints an itemised
  table, the total, the rounded total, and the distance of the total from
  the value a backend API returned.

  Python values are modelled as the script has them:
  - [float] is IEEE 754 binary64, here the kernel's primitive floats, with
    literals read to the nearest double;
  - [int] is [Z];
  - [str] is the UTF-8 text of the string in a [string]; lengths and field
    widths count code points, as Python does;
  - the standard output is the text written so far, in UTF-8 unless a run is
    given another encoding, and an uncaught exception ends the run with a
    non-zero exit status. *)

From Stdlib Require Import ZArith QArith Qround Qabs Qpower List String Ascii Bool Lia Lqa.
From Stdlib Require Import DecimalString Floats.
From Stdlib Require Import Permutation DecimalPos DecimalZ.
Import ListNotations.

Set Warnings "-inexact-float".

Local Open Scope string_scope.

(** ** Python strings *)
Module PyStr.

(** The newline [print] ends every line with. *)
Definition nl : string := String (ascii_of_nat 10) EmptyString.

(** A UTF-8 continuation byte has the form 10xxxxxx. *)
Definition is_continuation (c : ascii) : bool :=
  match c with
  | Ascii _ _ _ _ _ _ b6 b7 => b7 && negb b6
  end.

(** [len(s)]: the number of code points of [s]. *)
Fixpoint len (s : string) : nat :=
  match s with
  | EmptyString => 0
  | String c rest => if is_continuation c then len rest else S (len rest)
  end.

(** [s * n] *)
Fixpoint mul (s : string) (n : nat) : string :=
  match n with
  | O => EmptyString
  | S k => s ++ mul s k
  end.

(** The format specification [<w]: left-aligned in a field of at least [w]
    characters, filled with spaces.  No precision is given, so nothing is
    cut off. *)
Definition ljust (w : nat) (s : string) : string := s ++ mul " " (w - len s).

(** The format specification [>w]: right-aligned in a field of at least [w]
    characters. *)
Definition rjust (w : nat) (s : string) : string := mul " " (w - len s) ++ s.

(** [str(z)] of an int. *)
Definition of_int (z : Z) : string := NilZero.string_of_int (Z.to_int z).

End PyStr.

(** ** Python numbers *)
Module PyNum.

Inductive exn : Set := OverflowError | ValueError | UnicodeEncodeError.

Inductive result (A : Type) : Type :=
| Ok (a : A)
| Raise (e : exn).
Arguments Ok {A} a.
Arguments Raise {A} e.

(** The values the accumulator [total_calories] can hold: it starts as the
    int [0] and becomes a float with the first [+=]. *)
Inductive pyval : Set :=
| PyInt (z : Z)
| PyFloat (f : float).

(** The number [m * 2^e]. *)
Definition magnitude (m : positive) (e : Z) : Q :=
  (inject_Z (Zpos m) * Qpower 2 e)%Q.

(** The exact value of a finite double, as a fraction in lowest terms;
  [None] for nan and the infinities. *)
Definition exact_sf (x : spec_float) : option Q :=
  match x with
  | S754_zero _ => Some 0%Q
  | S754_finite s m e =>
      Some (Qred (if s then Qopp (magnitude m e) else magnitude m e))
  | S754_infinity _ | S754_nan => None
  end.

Definition exact (x : float) : option Q := exact_sf (Prim2SF x).

(** The sign bit of a double that is not nan. *)
Definition sign_sf (x : spec_float) : bool :=
  match x with
  | S754_zero s | S754_infinity s | S754_finite s _ _ => s
  | S754_nan => false
  end.

(** Nearest integer, ties to the even one. *)
Definition round_half_even (v : Q) : Z :=
  let q := Qfloor v in
  match Qcompare (v - inject_Z q) (1 # 2) with
  | Lt => q
  | Gt => (q + 1)%Z
  | Eq => if Z.even q then q else (q + 1)%Z
  end.

(** [float(z)] for an int: the nearest double, OverflowError when the int
    is beyond the range of a double. *)
Definition float_of_int (z : Z) : result float :=
  match binary_normalize prec emax z 0 false with
  | S754_infinity _ => Raise OverflowError
  | sf => Ok (SF2Prim sf)
  end.

Definition to_float (v : pyval) : result float :=
  match v with
  | PyInt z => float_of_int z
  | PyFloat f => Ok f
  end.

(** [total += calories] with a float on the right. *)
Definition iadd (total : pyval) (calories : float) : result pyval :=
  match to_float total with
  | Ok f => Ok (PyFloat (f + calories)%float)
  | Raise e => Raise e
  end.

(** [total - reference] with a float on the right. *)
Definition sub (total : pyval) (reference : float) : result float :=
  match to_float total with
  | Ok f => Ok (f - reference)%float
  | Raise e => Raise e
  end.

(** [round(x)] of a float, with one argument: the nearest int, ties to even;
  nan raises ValueError and an infinity OverflowError. *)
Definition round_float (x : float) : result Z :=
  match exact x with
  | Some v => Ok (round_half_even v)
  | None =>
      match Prim2SF x with
      | S754_nan => Raise ValueError
      | _ => Raise OverflowError
      end
  end.

(** [round(v)] with one argument: an int is returned as it is. *)
Definition round (v : pyval) : result Z :=
  match v with
  | PyInt z => Ok z
  | PyFloat f => round_float f
  end.

(** Two decimal digits of [0 <= r < 100]. *)
Definition two_digits (r : Z) : string :=
  (if (r <? 10)%Z then "0" else "") ++ PyStr.of_int r.

(** The text of [h] hundredths, with a minus sign when [neg]. *)
Definition decimal2 (neg : bool) (h : Z) : string :=
  (if neg then "-" else "") ++ PyStr.of_int (h / 100) ++ "." ++ two_digits (h mod 100).

(** The presentation type [.2f] of a float: the decimal with two places
  nearest to the exact value (ties to even), the sign taken from the sign
  bit. *)
Definition fixed2 (x : float) : string :=
  match exact x with
  | Some v => decimal2 (sign_sf (Prim2SF x)) (round_half_even (Qabs v * 100))
  | None =>
      match Prim2SF x with
      | S754_nan => "nan"
      | sf => (if sign_sf sf then "-" else "") ++ "inf"
      end
  end.

(** [format(v, ".2f")]: an int is converted to float first. *)
Definition format_2f (v : pyval) : result string :=
  match to_float v with
  | Ok f => Ok (fixed2 f)
  | Raise e => Raise e
  end.

End PyNum.
Export PyNum.

(** ** The script *)
Module Script.

(** A run: from the standard output written so far to the outcome and the
    standard output after it. *)
Definition Py (A : Type) : Type := string -> result A * string.

Definition ret {A} (a : A) : Py A := fun out => (Ok a, out).

Definition bind {A B} (c : Py A) (k : A -> Py B) : Py B :=
  fun out =>
    match c out with
    | (Ok a, out') => k a out'
    | (Raise e, out') => (Raise e, out')
    end.

(** An operation that may raise and writes nothing. *)
Definition lift {A} (r : result A) : Py A := fun out => (r, out).

(** [print(s)] *)
Definition print (s : string) : Py unit :=
  fun out => (Ok tt, out ++ s ++ PyStr.nl).

Declare Scope py_scope.
Delimit Scope py_scope with py.
Notation "x <- c ;; k" := (bind c (fun x => k))
  (at level 61, c at next level, right associativity) : py_scope.
Notation "c ;; k" := (bind c (fun _ => k))
  (at level 61, right associativity) : py_scope.
Local Open Scope py_scope.

(** The exit status of the interpreter after a run. *)
Definition exit_status {A} (r : result A * string) : Z :=
  match fst r with
  | Ok _ => 0
  | Raise _ => 1
  end.


Local Open Scope float_scope.

(** Lines 4-27. *)
Definition nutrition_logs : list (string * float) :=
  [ ("95% lean minced beef - HKMEATLO", 154.72);
    ("NOW Foods, Zinc Picolinat", 0.00);
    ("Chicken Breast Fillet", 165.00);
    ("Natrol, Melatonin, Time Release, 3 mg", 0.00);
    ("Broccoli", 57.57);
    ("Liquid Egg white", 117.50);
    ("white rice (uncooked)", 337.50);
    ("Sport research Omegas 3", 60.00);
    ("Redon1 Mre", 530.00);
    ("Canola oil", 53.14);
    ("Excellence Mint Intense Chocolate", 107.00);
    ("Mark and Spencer's protein bagel", 237.06);
    ("Life Extension, Two-Per-Day Multivitamin", 0.00);
    ("California Gold Nutrition, CoQ10 with Bioperine", 0.00);
    ("NOW Foods, NAC", 0.00);
    ("淮山麵", 351.51);
    ("Life Extension, Super K", 0.00);
    ("Fried Egg", 90.00);
    ("Alpen no added sugar (v3)", 276.75);
    ("Oatly Chocolate Oatmilk (updated)", 151.11);
    ("Oatly Chocolate Oatmilk (updated)", 151.11);
    ("Life Extension, Two-Per-Day Multivitamin", 0.00) ].

(** Line 42. *)
Definition backend_value : float := 2839.97.

(** Line 34: [f"{food_name:<45} {calories:>8.2f} cal"]. *)
Definition row (food_name : string) (calories : float) : string :=
  PyStr.ljust 45 food_name ++ " " ++ PyStr.rjust 8 (fixed2 calories) ++ " cal".

(** Lines 33-35: the loop, from the value of [total_calories] before it to
    the value after it. *)
Fixpoint loop (logs : list (string * float)) (total_calories : pyval) : Py pyval :=
  match logs with
  | [] => ret total_calories
  | (food_name, calories) :: rest =>
      print (row food_name calories) ;;
      total_calories <- lift (iadd total_calories calories) ;;
      loop rest total_calories
  end.

(** Line 38: [f"{'總計':<45} {total_calories:>8.2f} cal"]. *)
Definition total_row (total_calories : pyval) : Py string :=
  t <- lift (format_2f total_calories) ;;
  ret (PyStr.ljust 45 "總計" ++ " " ++ PyStr.rjust 8 t ++ " cal")%string.

(** Lines 29-39: the itemised report; its value is the total. *)
Definition report (nutrition_logs : list (string * float)) : Py pyval :=
  let total_calories := PyInt 0 in
  print "卡路里明細計算:" ;;
  print (PyStr.mul "-" 50) ;;
  total_calories <- loop nutrition_logs total_calories ;;
  print (PyStr.mul "-" 50) ;;
  line <- total_row total_calories ;;
  print line ;;
  r <- lift (round total_calories) ;;
  print ("四捨五入後: " ++ PyStr.of_int r ++ " cal") ;;
  ret total_calories.

(** Line 44: [abs(total_calories - backend_value)]. *)
Definition difference (total_calories : pyval) (backend_value : float) : result float :=
  match PyNum.sub total_calories backend_value with
  | Ok d => Ok (abs d)
  | Raise e => Raise e
  end.

(** Lines 43-44: the comparison with the value of the backend. *)
Definition compare (total_calories : pyval) (backend_value : float) : Py unit :=
  print (PyStr.nl ++ "後端 API 回傳: " ++ fixed2 backend_value ++ " cal") ;;
  d <- lift (difference total_calories backend_value) ;;
  print ("差異: " ++ fixed2 d ++ " cal").

(** Lines 47-48: the value the UI shows. *)
Definition ui (total_calories : pyval) : Py unit :=
  ui_display <- lift (round total_calories) ;;
  print ("UI 顯示 (四捨五入): " ++ PyStr.of_int ui_display ++ " cal").

(** The whole script, over the list and the backend value it embeds. *)
Definition script (nutrition_logs : list (string * float)) (backend_value : float)
  : Py unit :=
  total_calories <- report nutrition_logs ;;
  compare total_calories backend_value ;;
  ui total_calories.

(** The encoding of the standard output, with the strict error handler:
    UTF-8 can write every text, ASCII only code points below 128. *)
Inductive encoding : Set := UTF8 | ASCII.

Definition is_ascii_byte (c : ascii) : bool :=
  match c with
  | Ascii _ _ _ _ _ _ _ b7 => negb b7
  end.

Fixpoint all_ascii (s : string) : bool :=
  match s with
  | EmptyString => true
  | String c rest => is_ascii_byte c && all_ascii rest
  end.

Definition encodable (enc : encoding) (s : string) : bool :=
  match enc with
  | UTF8 => true
  | ASCII => all_ascii s
  end.

(** [print(s)] to a standard output with the encoding [enc]: a text that
    cannot be encoded raises UnicodeEncodeError and none of it is written. *)
Definition print_on (enc : encoding) (s : string) : Py unit :=
  fun out =>
    if encodable enc s then (Ok tt, out ++ s ++ PyStr.nl)%string
    else (Raise UnicodeEncodeError, out).

(** Lines 33-35 on such a standard output. *)
Fixpoint loop_on (enc : encoding) (logs : list (string * float))
  (total_calories : pyval) : Py pyval :=
  match logs with
  | [] => ret total_calories
  | (food_name, calories) :: rest =>
      print_on enc (row food_name calories) ;;
      total_calories <- lift (iadd total_calories calories) ;;
      loop_on enc rest total_calories
  end.

(** Lines 29-39 on such a standard output. *)
Definition report_on (enc : encoding) (nutrition_logs : list (string * float))
  : Py pyval :=
  let total_calories := PyInt 0 in
  print_on enc "卡路里明細計算:" ;;
  print_on enc (PyStr.mul "-" 50) ;;
  total_calories <- loop_on enc nutrition_logs total_calories ;;
  print_on enc (PyStr.mul "-" 50) ;;
  line <- total_row total_calories ;;
  print_on enc line ;;
  r <- lift (round total_calories) ;;
  print_on enc ("四捨五入後: " ++ PyStr.of_int r ++ " cal") ;;
  ret total_calories.

(** Lines 43-44 on such a standard output. *)
Definition compare_on (enc : encoding) (total_calories : pyval)
  (backend_value : float) : Py unit :=
  print_on enc (PyStr.nl ++ "後端 API 回傳: " ++ fixed2 backend_value ++ " cal") ;;
  d <- lift (difference total_calories backend_value) ;;
  print_on enc ("差異: " ++ fixed2 d ++ " cal").

(** Lines 47-48 on such a standard output. *)
Definition ui_on (enc : encoding) (total_calories : pyval) : Py unit :=
  ui_display <- lift (round total_calories) ;;
  print_on enc ("UI 顯示 (四捨五入): " ++ PyStr.of_int ui_display ++ " cal").

(** The whole script on such a standard output; [script] is the case of
    UTF-8. *)
Definition script_on (enc : encoding) (nutrition_logs : list (string * float))
  (backend_value : float) : Py unit :=
  total_calories <- report_on enc nutrition_logs ;;
  compare_on enc total_calories backend_value ;;
  ui_on enc total_calories.

(** What the interpreter is started with.  The script reads neither the
    arguments nor the environment nor the standard input; the interpreter
    takes the encoding of the standard output from the environment
    (PYTHONIOENCODING, the locale). *)
Record invocation : Type := {
  argv : list string;
  environ : list (string * string);
  stdin : string;
  stdout_encoding : encoding
}.

(** Running the file. *)
Definition main (w : invocation) : result unit * string :=
  script_on (stdout_encoding w) nutrition_logs backend_value "".

(** The value of [total_calories] after the loop over a list. *)
Definition total_of (logs : list (string * float)) : result pyval :=
  fst (loop logs (PyInt 0) "").

End Script.
Export Script.

(** ** What the claims compare the script with *)
Module Expected.

(** The table rows of a list, one line per entry, in the order of the list. *)
Fixpoint rows (logs : list (string * float)) : string :=
  match logs with
  | [] => ""
  | (food_name, calories) :: rest => row food_name calories ++ PyStr.nl ++ rows rest
  end.

(** The sum of a list of calories as the specification words it: the values
  added from left to right, in double precision, starting from zero.  As a
  Python value it is a float, and the int [0] the accumulator starts with
  when there is nothing to add. *)
Definition float_sum (calories : list float) : pyval :=
  match calories with
  | [] => PyInt 0
  | _ => PyFloat (fold_left PrimFloat.add calories 0%float)
  end.

(** A numeral with exactly two characters after its decimal point. *)
Definition two_places (s : string) : Prop :=
  exists int_part frac : string,
    s = int_part ++ "." ++ frac /\ String.length frac = 2%nat.

(** The calories of the embedded list in hundredths, as the numerals of
  lines 5-26 read. *)
Definition hundredths : list Z :=
  [ 15472; 0; 16500; 0; 5757; 11750; 33750; 6000; 53000; 5314; 10700;
    23706; 0; 0; 0; 35151; 0; 9000; 27675; 15111; 15111; 0 ]%Z.

(** The double nearest to [n / 100]: the correctly rounded quotient of two
  integers that are doubles themselves. *)
Definition nearest_double (n : Z) : float :=
  SF2Prim (SFdiv prec emax (binary_normalize prec emax n 0 false)
                           (binary_normalize prec emax 100 0 false)).

(** The calories of the embedded list added from left to right. *)
Definition embedded_total : float :=
  fold_left PrimFloat.add (map snd nutrition_logs) 0%float.

(** Lines of text, each ended by a newline. *)
Definition lines (l : list string) : string :=
  fold_right (fun s rest => s ++ PyStr.nl ++ rest) "" l.


(** A text up to its first decimal point, and the text after it. *)
Fixpoint split_dot (s : string) : option (string * string) :=
  match s with
  | EmptyString => None
  | String c rest =>
      if Ascii.eqb c "." then Some (EmptyString, rest)
      else match split_dot rest with
           | Some (a, b) => Some (String c a, b)
           | None => None
           end
  end.

(** A leading minus sign, and the text after it. *)
Definition strip_minus (s : string) : bool * string :=
  match s with
  | String c rest => if Ascii.eqb c "-" then (true, rest) else (false, s)
  | EmptyString => (false, s)
  end.

(** The number a decimal numeral denotes: an optional minus sign, digits,
  a point and digits, read with the decimal reader of the library. *)
Definition numeral_value (s : string) : option Q :=
  let (neg, body) := strip_minus s in
  match split_dot body with
  | Some (int_part, frac) =>
      match NilZero.uint_of_string int_part, NilZero.uint_of_string frac with
      | Some i, Some f =>
          let m := (inject_Z (Z.of_uint i)
                    + inject_Z (Z.of_uint f)
                      / inject_Z (10 ^ Z.of_nat (String.length frac)))%Q in
          Some (if neg then Qopp m else m)
      | _, _ => None
      end
  | None => None
  end.

(** Within [eps] of [d]. *)
Definition near (eps d v : Q) : Prop := Qabs (v - d) <= eps.

End Expected.
Export Expected.

(** ** The text of a run, piece by piece *)
Module Layout.

(** Lines 30-38: the title, the rule, the rows, the rule again and the line
  of the total, for a total that is the float [f]. *)
Definition table (logs : list (string * float)) (f : float) : string :=
  "卡路里明細計算:" ++ PyStr.nl
  ++ PyStr.mul "-" 50 ++ PyStr.nl
  ++ rows logs
  ++ PyStr.mul "-" 50 ++ PyStr.nl
  ++ PyStr.ljust 45 "總計" ++ " " ++ PyStr.rjust 8 (fixed2 f) ++ " cal" ++ PyStr.nl.

(** Lines 39-48: the rounded total [r], the backend value, the distance [d]
  and the value for the UI. *)
Definition summary (r : Z) (backend d : float) : string :=
  "四捨五入後: " ++ PyStr.of_int r ++ " cal" ++ PyStr.nl
  ++ PyStr.nl ++ "後端 API 回傳: " ++ fixed2 backend ++ " cal" ++ PyStr.nl
  ++ "差異: " ++ fixed2 d ++ " cal" ++ PyStr.nl
  ++ "UI 顯示 (四捨五入): " ++ PyStr.of_int r ++ " cal" ++ PyStr.nl.

(** The exception [round] raises for a float without a finite value. *)
Definition round_error (f : float) : exn :=
  match Prim2SF f with
  | S754_nan => ValueError
  | _ => OverflowError
  end.

(** [f z && f (z+1) && ... && f (z+n-1)] *)
Fixpoint forall_from (f : Z -> bool) (n : nat) (z : Z) : bool :=
  match n with
  | O => true
  | S k => f z && forall_from f k (z + 1)
  end.

End Layout.
Export Layout.

(** ** Strings: concatenation and lengths *)
Section StringFacts.

Local Open Scope nat_scope.

Lemma append_assoc (a b c : string) : (a ++ b) ++ c = a ++ (b ++ c).
Proof.
  induction a as [|x a IH]; simpl; [reflexivity | now rewrite IH].
Qed.

Lemma append_empty_r (a : string) : a ++ "" = a.
Proof.
  induction a as [|x a IH]; simpl; [reflexivity | now rewrite IH].
Qed.

Lemma len_append (a b : string) : PyStr.len (a ++ b) = PyStr.len a + PyStr.len b.
Proof.
  induction a as [|x a IH]; simpl; [reflexivity|].
  destruct (PyStr.is_continuation x); simpl; now rewrite IH.
Qed.

Lemma len_spaces (n : nat) : PyStr.len (PyStr.mul " " n) = n.
Proof.
  induction n as [|n IH]; simpl; [reflexivity | now rewrite IH].
Qed.

Lemma len_ljust (w : nat) (s : string) :
  PyStr.len (PyStr.ljust w s) = Nat.max w (PyStr.len s).
Proof.
  unfold PyStr.ljust. rewrite len_append, len_spaces. lia.
Qed.

Lemma len_rjust (w : nat) (s : string) :
  PyStr.len (PyStr.rjust w s) = Nat.max w (PyStr.len s).
Proof.
  unfold PyStr.rjust. rewrite len_append, len_spaces. lia.
Qed.

End StringFacts.

(** ** Rounding to the nearest integer *)
Section Rounding.

Local Open Scope Q_scope.

(** The floor and the fractional part a rounding starts from. *)
Lemma floor_fraction (v : Q) :
  0 <= v - inject_Z (Qfloor v) /\ v - inject_Z (Qfloor v) < 1.
Proof.
  pose proof (Qfloor_le v) as Hl.
  pose proof (Qlt_floor v) as Hu.
  rewrite inject_Z_plus in Hu.
  change (inject_Z 1) with 1 in Hu.
  split; lra.
Qed.

Lemma round_half_even_nearest (v : Q) :
  Qabs (v - inject_Z (round_half_even v)) <= 1 # 2.
Proof.
  unfold round_half_even.
  destruct (floor_fraction v) as [H0 H1].
  set (q := Qfloor v) in *.
  apply Qabs_Qle_condition.
  destruct (Qcompare_spec (v - inject_Z q) (1 # 2)) as [He|Hlt|Hgt].
  - destruct (Z.even q).
    + lra.
    + rewrite inject_Z_plus. change (inject_Z 1) with 1. lra.
  - lra.
  - rewrite inject_Z_plus. change (inject_Z 1) with 1. lra.
Qed.

Lemma round_half_even_tie (v : Q) :
  Qabs (v - inject_Z (round_half_even v)) == 1 # 2 ->
  Z.even (round_half_even v) = true.
Proof.
  unfold round_half_even.
  destruct (floor_fraction v) as [H0 H1].
  set (q := Qfloor v) in *.
  destruct (Qcompare_spec (v - inject_Z q) (1 # 2)) as [He|Hlt|Hgt]; intros Ht.
  - destruct (Z.even q) eqn:Hq; [assumption|].
    rewrite Z.even_add, Hq. reflexivity.
  - exfalso. rewrite Qabs_pos in Ht by lra. lra.
  - exfalso. rewrite inject_Z_plus in Ht. change (inject_Z 1) with 1 in Ht.
    rewrite Qabs_neg in Ht by lra. lra.
Qed.

Lemma round_half_even_nonneg (v : Q) : 0 <= v -> (0 <= round_half_even v)%Z.
Proof.
  intros Hv. unfold round_half_even.
  assert (Hq : (0 <= Qfloor v)%Z).
  { change 0%Z with (Qfloor 0). now apply Qfloor_resp_le. }
  destruct (Qcompare _ _); [destruct (Z.even _)| |]; lia.
Qed.

End Rounding.

(** ** The presentation type [.2f] *)
Section Formatting.

Local Open Scope Q_scope.

Lemma two_digits_length (r : Z) :
  (0 <= r < 100)%Z -> String.length (two_digits r) = 2%nat.
Proof.
  intros Hr.
  assert (H : forallb (fun n => Nat.eqb (String.length (two_digits (Z.of_nat n))) 2)
                (seq 0 100) = true) by (vm_compute; reflexivity).
  rewrite forallb_forall in H.
  specialize (H (Z.to_nat r)). rewrite Z2Nat.id in H by lia.
  apply Nat.eqb_eq, H, in_seq. lia.
Qed.

Lemma decimal2_two_places (neg : bool) (h : Z) : two_places (decimal2 neg h).
Proof.
  exists ((if neg then "-" else "") ++ PyStr.of_int (h / 100))%string.
  exists (two_digits (h mod 100)).
  split.
  - unfold decimal2. now rewrite !append_assoc.
  - apply two_digits_length, Z.mod_pos_bound. lia.
Qed.

(** A finite double is printed as the number of hundredths nearest to it. *)
Lemma fixed2_finite (x : float) (v : Q) :
  exact x = Some v ->
  exists h : Z,
    fixed2 x = decimal2 (sign_sf (Prim2SF x)) h
    /\ (0 <= h)%Z
    /\ Qabs (Qabs v * 100 - inject_Z h) <= 1 # 2.
Proof.
  intros Hx. exists (round_half_even (Qabs v * 100)).
  split; [unfold fixed2; now rewrite Hx|].
  split; [|apply round_half_even_nearest].
  apply round_half_even_nonneg.
  pose proof (Qabs_nonneg v). lra.
Qed.

Lemma fixed2_two_places (x : float) (v : Q) :
  exact x = Some v -> two_places (fixed2 x).
Proof.
  intros Hx. destruct (fixed2_finite x v Hx) as (h & -> & _).
  apply decimal2_two_places.
Qed.

Lemma magnitude_nonneg (m : positive) (e : Z) : 0 <= magnitude m e.
Proof.
  apply Qmult_le_0_compat.
  - change 0 with (inject_Z 0). rewrite <- Zle_Qle. lia.
  - apply Qpower_0_le. lra.
Qed.

(** [abs] clears the sign bit. *)
Lemma exact_abs (x : float) (v : Q) :
  exact (abs x) = Some v -> 0 <= v /\ sign_sf (Prim2SF (abs x)) = false.
Proof.
  unfold exact. rewrite abs_spec.
  destruct (Prim2SF x) as [s|s| |s m e]; cbn [SFabs exact_sf sign_sf];
    intros H; try discriminate H.
  - assert (E : 0 = v) by congruence. rewrite <- E.
    split; [lra | reflexivity].
  - assert (E : Qred (magnitude m e) = v) by congruence. rewrite <- E.
    split; [|reflexivity].
    rewrite Qred_correct. apply magnitude_nonneg.
Qed.

End Formatting.

(** ** The loop *)
Section Loop.

Lemma float_of_int_0 : float_of_int 0 = Ok 0%float.
Proof. reflexivity. Qed.

(** Once the accumulator is a float the loop cannot raise: it prints one row
    per entry and adds each value once. *)
Lemma loop_float (logs : list (string * float)) :
  forall (f : float) (out : string),
    loop logs (PyFloat f) out =
    (Ok (PyFloat (fold_left PrimFloat.add (map snd logs) f)), out ++ rows logs).
Proof.
  induction logs as [|[food_name calories] rest IH]; intros f out.
  - simpl. unfold ret. now rewrite append_empty_r.
  - cbn [loop rows map snd fold_left].
    unfold bind at 1, print at 1. unfold bind at 1, lift at 1.
    cbn [iadd to_float]. rewrite IH.
    now rewrite !append_assoc.
Qed.

Lemma loop_int_0 (logs : list (string * float)) (out : string) :
  loop logs (PyInt 0) out = (Ok (float_sum (map snd logs)), out ++ rows logs).
Proof.
  destruct logs as [|[food_name calories] rest].
  - simpl. unfold ret. now rewrite append_empty_r.
  - cbn [loop rows map snd float_sum fold_left].
    unfold bind at 1, print at 1. unfold bind at 1, lift at 1.
    unfold iadd, to_float. rewrite float_of_int_0. rewrite loop_float.
    now rewrite !append_assoc.
Qed.

Lemma total_of_eq (logs : list (string * float)) :
  total_of logs = Ok (float_sum (map snd logs)).
Proof.
  unfold total_of. now rewrite loop_int_0.
Qed.

End Loop.

(** C6: for every list the loop leaves in [total_calories] the sum of the
    calories added from left to right in double precision, starting from
    zero; it prints the rows of the entries in the same order, and adds every
    element once, an entry that occurs twice counting twice. *)
Theorem total_is_left_to_right_sum (logs : list (string * float)) (out : string) :
  loop logs (PyInt 0) out = (Ok (float_sum (map snd logs)), out ++ rows logs)
  /\ total_of logs = Ok (float_sum (map snd logs))
  /\ (exists t,
        total_of logs = Ok t
        /\ to_float t = Ok (fold_left PrimFloat.add (map snd logs) 0%float))
  /\ (forall food_name calories,
        total_of (logs ++ [(food_name, calories)]) =
        match total_of logs with
        | Ok t => iadd t calories
        | Raise e => Raise e
        end)
  /\ (forall food_name calories,
        total_of [(food_name, calories); (food_name, calories)] =
        Ok (PyFloat (0 + calories + calories)%float)).
Proof.
  split; [apply loop_int_0|].
  split; [apply total_of_eq|].
  split.
  { exists (float_sum (map snd logs)). split; [apply total_of_eq|].
    destruct logs as [|[n0 c0] rest]; reflexivity. }
  split.
  - intros food_name calories. rewrite !total_of_eq.
    rewrite map_app. cbn [map snd].
    destruct logs as [|[n0 c0] rest].
    + reflexivity.
    + cbn [map snd app float_sum fold_left]. unfold iadd, to_float.
      now rewrite fold_left_app.
  - intros food_name calories. now rewrite total_of_eq.
Qed.

(** ** The report *)
Section Report.

Lemma report_eq (logs : list (string * float)) (out : string)
  (total : pyval) (f : float) (r : Z) :
  total_of logs = Ok total ->
  to_float total = Ok f ->
  round total = Ok r ->
  report logs out =
  (Ok total,
   out ++ "卡路里明細計算:" ++ PyStr.nl
       ++ PyStr.mul "-" 50 ++ PyStr.nl
       ++ rows logs
       ++ PyStr.mul "-" 50 ++ PyStr.nl
       ++ PyStr.ljust 45 "總計" ++ " " ++ PyStr.rjust 8 (fixed2 f) ++ " cal" ++ PyStr.nl
       ++ "四捨五入後: " ++ PyStr.of_int r ++ " cal" ++ PyStr.nl).
Proof.
  intros Ht Hf Hr.
  rewrite total_of_eq in Ht. injection Ht as Ht.
  unfold report.
  unfold bind at 1, print at 1. unfold bind at 1, print at 1.
  unfold bind at 1. rewrite loop_int_0, Ht.
  unfold bind at 1, print at 1.
  unfold bind at 1, total_row, bind at 1, lift at 1, format_2f.
  rewrite Hf. unfold ret at 1.
  unfold bind at 1, print at 1.
  unfold bind at 1, lift at 1. rewrite Hr.
  unfold bind at 1, print at 1. unfold ret.
  now rewrite !append_assoc.
Qed.

(** The total of any list converts to a float. *)
Lemma float_sum_to_float (calories : list float) :
  exists f, to_float (float_sum calories) = Ok f.
Proof.
  destruct calories as [|c cs]; cbn [float_sum to_float].
  - exists 0%float. apply float_of_int_0.
  - eexists; reflexivity.
Qed.

(** The script ends with status 0 whenever [round] accepts the total. *)
Lemma script_succeeds (logs : list (string * float)) (backend : float)
  (out : string) (r : Z) :
  round (float_sum (map snd logs)) = Ok r ->
  exit_status (script logs backend out) = 0%Z.
Proof.
  intros Hr.
  destruct (float_sum_to_float (map snd logs)) as [f Hf].
  unfold script. unfold bind at 1.
  rewrite (report_eq logs out _ f r (total_of_eq logs) Hf Hr).
  unfold bind at 1, compare.
  unfold bind at 1, print at 1. unfold bind at 1, lift at 1.
  unfold difference, PyNum.sub. rewrite Hf.
  unfold print at 1. unfold ui, bind at 1, lift at 1. rewrite Hr.
  reflexivity.
Qed.

End Report.

(** ** Reading a printed numeral back *)
Section Numerals.

Local Open Scope Q_scope.

(** The text of an int that is not negative is the text of its digits. *)
Lemma of_int_digits (q : Z) :
  (0 <= q)%Z ->
  exists d : Decimal.uint,
    d <> Decimal.Nil
    /\ PyStr.of_int q = NilEmpty.string_of_uint d
    /\ NilZero.uint_of_string (NilEmpty.string_of_uint d) = Some d
    /\ Z.of_uint d = q.
Proof.
  intros Hq.
  assert (Hnil : forall d, d <> Decimal.Nil ->
                   NilZero.string_of_uint d = NilEmpty.string_of_uint d).
  { intros d Hd. destruct d; [contradiction|reflexivity..]. }
  destruct q as [|p|p]; [| |lia].
  - exists (Decimal.D0 Decimal.Nil). repeat split. discriminate.
  - pose proof (Unsigned.to_uint_nonnil p) as Hd.
    exists (Pos.to_uint p). split; [exact Hd|]. split; [|split].
    + unfold PyStr.of_int. cbn [Z.to_int NilZero.string_of_int]. now apply Hnil.
    + rewrite <- (Hnil _ Hd). now apply NilZero.usu.
    + unfold Z.of_uint. now rewrite Unsigned.of_to.
Qed.

Lemma split_dot_digits (d : Decimal.uint) (b : string) :
  split_dot (NilEmpty.string_of_uint d ++ String "." b)
  = Some (NilEmpty.string_of_uint d, b).
Proof.
  induction d; cbn [NilEmpty.string_of_uint append split_dot];
    [reflexivity | rewrite IHd; reflexivity ..].
Qed.

Lemma strip_minus_digits (d : Decimal.uint) (b : string) :
  d <> Decimal.Nil ->
  strip_minus (NilEmpty.string_of_uint d ++ b)
  = (false, (NilEmpty.string_of_uint d ++ b)%string).
Proof.
  intros Hd. destruct d; [contradiction|reflexivity..].
Qed.

(** The two digits after the point read back as the number they print. *)
Lemma two_digits_value (r : Z) :
  (0 <= r < 100)%Z ->
  exists f : Decimal.uint,
    NilZero.uint_of_string (two_digits r) = Some f
    /\ Z.of_uint f = r
    /\ String.length (two_digits r) = 2%nat.
Proof.
  intros Hr.
  set (ok := fun n : nat =>
               match NilZero.uint_of_string (two_digits (Z.of_nat n)) with
               | Some f => Z.eqb (Z.of_uint f) (Z.of_nat n)
                           && Nat.eqb (String.length (two_digits (Z.of_nat n))) 2
               | None => false
               end).
  assert (H : forallb ok (seq 0 100) = true) by (vm_compute; reflexivity).
  rewrite forallb_forall in H.
  specialize (H (Z.to_nat r)). unfold ok in H. rewrite Z2Nat.id in H by lia.
  destruct (NilZero.uint_of_string (two_digits r)) as [f|].
  - exists f. split; [reflexivity|].
    assert (Hin : In (Z.to_nat r) (seq 0 100)) by (apply in_seq; lia).
    apply H in Hin. apply andb_prop in Hin. destruct Hin as [H1 H2].
    split; [now apply Z.eqb_eq | now apply Nat.eqb_eq].
  - assert (Hin : In (Z.to_nat r) (seq 0 100)) by (apply in_seq; lia).
    apply H in Hin. discriminate Hin.
Qed.

(** The numeral printed for [h] hundredths denotes [h / 100], negated under
    a minus sign. *)
Lemma decimal2_value (neg : bool) (h : Z) :
  (0 <= h)%Z ->
  exists q : Q,
    numeral_value (decimal2 neg h) = Some q
    /\ q * 100 == (if neg then - inject_Z h else inject_Z h).
Proof.
  intros Hh.
  assert (Ha : (0 <= h / 100)%Z) by (apply Z.div_pos; lia).
  destruct (of_int_digits (h / 100) Ha) as (d & Hd & Hs & Hu & Hv).
  destruct (two_digits_value (h mod 100)) as (f & Hf & Hfv & Hl);
    [apply Z.mod_pos_bound; lia|].
  assert (Hval : (inject_Z (Z.of_uint d)
                  + inject_Z (Z.of_uint f)
                    / inject_Z (10 ^ Z.of_nat (String.length (two_digits (h mod 100)))))
                 * 100 == inject_Z h).
  { rewrite Hv, Hfv, Hl. change (inject_Z (10 ^ Z.of_nat 2)) with 100.
    rewrite (Z.div_mod h 100) at 3 by lia.
    rewrite inject_Z_plus, inject_Z_mult. change (inject_Z 100) with 100.
    field. }
  unfold decimal2. rewrite Hs. unfold numeral_value.
  destruct neg.
  - cbn [append strip_minus Ascii.eqb Bool.eqb].
    rewrite split_dot_digits, Hu, Hf.
    eexists. split; [reflexivity|].
    rewrite <- Hval. ring.
  - cbn [append]. change ("." ++ two_digits (h mod 100))%string
      with (String "." (two_digits (h mod 100))).
    rewrite strip_minus_digits by exact Hd.
    rewrite split_dot_digits, Hu, Hf.
    eexists. split; [reflexivity | exact Hval].
Qed.

(** The sign bit agrees with the sign of the value. *)
Lemma exact_sign (x : float) (v : Q) :
  exact x = Some v ->
  if sign_sf (Prim2SF x) then v <= 0 else 0 <= v.
Proof.
  unfold exact.
  destruct (Prim2SF x) as [s|s| |s m e]; cbn [exact_sf sign_sf];
    intros H; try discriminate H.
  - assert (E : 0 = v) by congruence. rewrite <- E. destruct s; lra.
  - pose proof (magnitude_nonneg m e) as Hm.
    assert (E : Qred (if s then - magnitude m e else magnitude m e) = v)
      by congruence.
    rewrite <- E. destruct s; rewrite Qred_correct; lra.
Qed.

(** The numeral [.2f] prints for a finite float denotes a number within half
    a hundredth of the float's exact value, and its sign. *)
Lemma fixed2_value (x : float) (v : Q) :
  exact x = Some v ->
  exists q : Q,
    numeral_value (fixed2 x) = Some q
    /\ Qabs (q - v) <= 1 # 200
    /\ (if sign_sf (Prim2SF x) then q <= 0 else 0 <= q).
Proof.
  intros Hx.
  pose proof (exact_sign x v Hx) as Hs.
  pose proof (round_half_even_nearest (Qabs v * 100)) as Hn.
  assert (Hh : (0 <= round_half_even (Qabs v * 100))%Z).
  { apply round_half_even_nonneg. pose proof (Qabs_nonneg v). lra. }
  unfold fixed2. rewrite Hx.
  set (h := round_half_even (Qabs v * 100)) in *.
  destruct (decimal2_value (sign_sf (Prim2SF x)) h Hh) as (q & Hq & Hv).
  exists q. split; [exact Hq|].
  assert (Hh' : 0 <= inject_Z h) by (change 0 with (inject_Z 0); now rewrite <- Zle_Qle).
  apply Qabs_Qle_condition in Hn.
  destruct (sign_sf (Prim2SF x)).
  - pose proof (Qabs_neg v Hs) as Ea.
    split; [apply Qabs_Qle_condition|]; lra.
  - pose proof (Qabs_pos v Hs) as Ea.
    split; [apply Qabs_Qle_condition|]; lra.
Qed.

End Numerals.

(** ** The comparison with the backend *)

(** C5: the comparison step prints the reference and the distance
    [abs(total - reference)], each as a numeral with two decimal places that
    denotes a number within half a hundredth of the exact value; the distance
    is not negative. *)
Theorem compare_prints_abs_difference
  (total : pyval) (t reference : float) (out : string) (vr vd : Q) :
  to_float total = Ok t ->
  exact reference = Some vr ->
  exact (abs (t - reference)) = Some vd ->
  exists hr hd : Z,
    difference total reference = Ok (abs (t - reference))
    /\ compare total reference out =
       (Ok tt,
        out ++ PyStr.nl ++ "後端 API 回傳: "
            ++ decimal2 (sign_sf (Prim2SF reference)) hr ++ " cal" ++ PyStr.nl
            ++ "差異: " ++ decimal2 false hd ++ " cal" ++ PyStr.nl)
    /\ fixed2 reference = decimal2 (sign_sf (Prim2SF reference)) hr
    /\ fixed2 (abs (t - reference)) = decimal2 false hd
    /\ two_places (fixed2 reference)
    /\ two_places (fixed2 (abs (t - reference)))
    /\ (Qabs (Qabs vr * 100 - inject_Z hr) <= 1 # 2)%Q
    /\ (0 <= vd)%Q
    /\ (Qabs (vd * 100 - inject_Z hd) <= 1 # 2)%Q
    /\ compare total reference out =
       (Ok tt,
        out ++ PyStr.nl ++ "後端 API 回傳: " ++ fixed2 reference ++ " cal" ++ PyStr.nl
            ++ "差異: " ++ fixed2 (abs (t - reference)) ++ " cal" ++ PyStr.nl)
    /\ (exists qr : Q,
          numeral_value (fixed2 reference) = Some qr
          /\ (Qabs (qr - vr) <= 1 # 200)%Q)
    /\ (exists qd : Q,
          numeral_value (fixed2 (abs (t - reference))) = Some qd
          /\ (Qabs (qd - vd) <= 1 # 200)%Q
          /\ (0 <= qd)%Q).
Proof.
  intros Ht Hr Hd.
  destruct (fixed2_finite _ _ Hr) as (hr & Er & _ & Nr).
  destruct (fixed2_finite _ _ Hd) as (hd & Ed & _ & Nd).
  destruct (exact_abs _ _ Hd) as [Pd Sd].
  destruct (fixed2_value _ _ Hr) as (qr & Qr & Vr & _).
  destruct (fixed2_value _ _ Hd) as (qd & Qd & Vd & Sq).
  rewrite Sd in Ed, Sq.
  assert (Hdiff : difference total reference = Ok (abs (t - reference))).
  { unfold difference, PyNum.sub. now rewrite Ht. }
  assert (Hcmp : compare total reference out =
       (Ok tt,
        out ++ PyStr.nl ++ "後端 API 回傳: " ++ fixed2 reference ++ " cal" ++ PyStr.nl
            ++ "差異: " ++ fixed2 (abs (t - reference)) ++ " cal" ++ PyStr.nl)).
  { unfold compare, bind, print, lift. rewrite Hdiff.
    now rewrite !append_assoc. }
  exists hr, hd.
  split; [exact Hdiff|].
  split; [rewrite Hcmp, Er, Ed; reflexivity|].
  split; [exact Er|]. split; [exact Ed|].
  split; [now apply fixed2_two_places with vr|].
  split; [now apply fixed2_two_places with vd|].
  split; [exact Nr|]. split; [exact Pd|].
  split.
  { pose proof (Qabs_pos vd Pd) as E.
    apply Qabs_Qle_condition in Nd. apply Qabs_Qle_condition. lra. }
  split; [exact Hcmp|].
  split; [now exists qr|].
  exists qd. now repeat split.
Qed.

(** The comparison of a total of 2839.86 with the embedded backend value:
    the distance, 120946279055 / 2^40, is printed as 0.11. *)
Lemma compare_prints_abs_difference_witness :
  exists hr hd : Z,
    difference (PyFloat 2839.86) backend_value = Ok (abs (2839.86 - backend_value))
    /\ compare (PyFloat 2839.86) backend_value "" =
       (Ok tt,
        "" ++ PyStr.nl ++ "後端 API 回傳: "
           ++ decimal2 (sign_sf (Prim2SF backend_value)) hr ++ " cal" ++ PyStr.nl
           ++ "差異: " ++ decimal2 false hd ++ " cal" ++ PyStr.nl)
    /\ fixed2 backend_value = decimal2 (sign_sf (Prim2SF backend_value)) hr
    /\ fixed2 (abs (2839.86 - backend_value)) = decimal2 false hd
    /\ two_places (fixed2 backend_value)
    /\ two_places (fixed2 (abs (2839.86 - backend_value)))
    /\ (Qabs (Qabs (6245160075070013 # 2199023255552) * 100 - inject_Z hr) <= 1 # 2)%Q
    /\ (0 <= 120946279055 # 1099511627776)%Q
    /\ (Qabs ((120946279055 # 1099511627776) * 100 - inject_Z hd) <= 1 # 2)%Q
    /\ compare (PyFloat 2839.86) backend_value "" =
       (Ok tt,
        "" ++ PyStr.nl ++ "後端 API 回傳: " ++ fixed2 backend_value ++ " cal" ++ PyStr.nl
           ++ "差異: " ++ fixed2 (abs (2839.86 - backend_value)) ++ " cal" ++ PyStr.nl)
    /\ (exists qr : Q,
          numeral_value (fixed2 backend_value) = Some qr
          /\ (Qabs (qr - (6245160075070013 # 2199023255552)) <= 1 # 200)%Q)
    /\ (exists qd : Q,
          numeral_value (fixed2 (abs (2839.86 - backend_value))) = Some qd
          /\ (Qabs (qd - (120946279055 # 1099511627776)) <= 1 # 200)%Q
          /\ (0 <= qd)%Q).
Proof.
  apply (compare_prints_abs_difference
           (PyFloat 2839.86) 2839.86%float backend_value ""
           (6245160075070013 # 2199023255552) (120946279055 # 1099511627776));
    vm_compute; reflexivity.
Defined.

(** That comparison as text, and the numbers its numerals denote. *)
Example compare_0_11 :
  compare (PyFloat 2839.86) backend_value "" =
    (Ok tt, lines [""; "後端 API 回傳: 2839.97 cal"; "差異: 0.11 cal"])
  /\ numeral_value "2839.97" = Some (2839 + 97 / 100)%Q
  /\ numeral_value "0.11" = Some (0 + 11 / 100)%Q
  /\ numeral_value "-0.00" = Some (- (0 + 0 / 100))%Q.
Proof.
  repeat split; vm_compute; reflexivity.
Qed.

(** ** The embedded list *)

(** Every float literal of the file denotes the double nearest to the decimal
    it is written as. *)
Lemma literals_are_nearest_doubles :
  map snd nutrition_logs = map nearest_double hundredths
  /\ backend_value = nearest_double 283997.
Proof.
  split; vm_compute; reflexivity.
Qed.

(** The claim C1 as the specification words it fails: the total of the
    embedded list is not within 0.05 of 2839.86. *)
Lemma embedded_total_not_2839_86 :
  ~ (exists (t : float) (v : Q),
       total_of nutrition_logs = Ok (PyFloat t)
       /\ exact t = Some v
       /\ near 0.05 2839.86 v).
Proof.
  intros (t & v & Ht & Hv & Hn).
  rewrite total_of_eq in Ht. injection Ht as Ht. subst t.
  vm_compute in Hv. injection Hv as Hv. subst v.
  unfold near in Hn. apply Qle_bool_iff in Hn.
  vm_compute in Hn. discriminate Hn.
Qed.

(** C1, amended: the loop over the 22 embedded entries computes the
    double-precision sum of the listed calories taken from left to right.
    The listed decimals add up to 2839.97, and the computed sum is the double
    3122580037535007 / 2^40, within 1e-12 of 2839.97 and printed as
    2839.97. *)
Theorem embedded_total_value :
  List.length nutrition_logs = 22%nat
  /\ fold_right Z.add 0%Z hundredths = 283997%Z
  /\ total_of nutrition_logs = Ok (PyFloat embedded_total)
  /\ exact embedded_total = Some (3122580037535007 # 1099511627776)
  /\ near 1e-12 2839.97 (3122580037535007 # 1099511627776)
  /\ fixed2 embedded_total = "2839.97".
Proof.
  split; [reflexivity|].
  split; [reflexivity|].
  split; [apply total_of_eq|].
  split; [vm_compute; reflexivity|].
  split; [|vm_compute; reflexivity].
  unfold near. apply Qle_bool_iff. vm_compute. reflexivity.
Qed.

(** C4: [round] applied to the total the loop computes over the embedded
    entries is 2840, and both lines that show the rounded total print it. *)
Theorem rounded_total_is_2840 :
  (exists t, total_of nutrition_logs = Ok t /\ round t = Ok 2840%Z)
  /\ (forall out,
        ui (PyFloat embedded_total) out =
        (Ok tt, out ++ "UI 顯示 (四捨五入): 2840 cal" ++ PyStr.nl))
  /\ (forall out,
        report nutrition_logs out =
        (Ok (PyFloat embedded_total),
         out ++ "卡路里明細計算:" ++ PyStr.nl
             ++ PyStr.mul "-" 50 ++ PyStr.nl
             ++ rows nutrition_logs
             ++ PyStr.mul "-" 50 ++ PyStr.nl
             ++ PyStr.ljust 45 "總計" ++ " " ++ PyStr.rjust 8 "2839.97" ++ " cal"
             ++ PyStr.nl
             ++ "四捨五入後: 2840 cal" ++ PyStr.nl)).
Proof.
  assert (Hr : round (PyFloat embedded_total) = Ok 2840%Z)
    by (vm_compute; reflexivity).
  assert (Hf : fixed2 embedded_total = "2839.97") by (vm_compute; reflexivity).
  split; [|split].
  - exists (PyFloat embedded_total). split; [apply total_of_eq | exact Hr].
  - intros out. unfold ui, bind, lift, print. rewrite Hr. reflexivity.
  - intros out.
    rewrite (report_eq nutrition_logs out (PyFloat embedded_total)
               embedded_total 2840 (total_of_eq _) eq_refl Hr).
    rewrite Hf. reflexivity.
Qed.

(** The claim C2 as the specification words it fails: the distance of the
    total from the backend value is not within 0.05 of 0.11, and it is not
    printed as 0.11. *)
Lemma embedded_difference_not_0_11 :
  ~ (exists (t : pyval) (d : float) (v : Q),
       total_of nutrition_logs = Ok t
       /\ difference t backend_value = Ok d
       /\ exact d = Some v
       /\ (near 0.05 0.11 v \/ fixed2 d = "0.11")).
Proof.
  intros (t & d & v & Ht & Hd & Hv & Hn).
  rewrite total_of_eq in Ht. injection Ht as Ht. subst t.
  vm_compute in Hd. injection Hd as Hd. subst d.
  destruct Hn as [Hn|Hn].
  - vm_compute in Hv. injection Hv as Hv. subst v.
    unfold near in Hn. apply Qle_bool_iff in Hn.
    vm_compute in Hn. discriminate Hn.
  - vm_compute in Hn. discriminate Hn.
Qed.

(** C2, amended: the total of the embedded list is the double next above the
    backend value 2839.97, so the distance the script computes is 2^-41
    (about 4.5e-13), and the comparison step prints it as 0.00. *)
Theorem embedded_difference :
  difference (PyFloat embedded_total) backend_value =
    Ok (abs (embedded_total - backend_value))
  /\ exact (abs (embedded_total - backend_value)) = Some (1 # 2199023255552)
  /\ (1 # 2199023255552 == 2 ^ (-41))%Q
  /\ embedded_total = next_up backend_value
  /\ fixed2 (abs (embedded_total - backend_value)) = "0.00"
  /\ (forall out,
        compare (PyFloat embedded_total) backend_value out =
        (Ok tt,
         out ++ PyStr.nl ++ "後端 API 回傳: 2839.97 cal" ++ PyStr.nl
             ++ "差異: 0.00 cal" ++ PyStr.nl)).
Proof.
  assert (Hd : difference (PyFloat embedded_total) backend_value =
               Ok (abs (embedded_total - backend_value))) by reflexivity.
  assert (Fd : fixed2 (abs (embedded_total - backend_value)) = "0.00")
    by (vm_compute; reflexivity).
  assert (Fb : fixed2 backend_value = "2839.97") by (vm_compute; reflexivity).
  split; [exact Hd|].
  split; [vm_compute; reflexivity|].
  split; [vm_compute; reflexivity|].
  split; [vm_compute; reflexivity|].
  split; [exact Fd|].
  intros out. unfold compare, bind, print, lift.
  rewrite Hd, Fd, Fb. now rewrite !append_assoc.
Qed.

(** ** The layout of the table *)

(** The claim C3 as the specification words it fails on the embedded list:
    one of its labels has 47 characters and is printed whole, so its line is
    not a 45-column label followed by an 8-column value. *)
Lemma long_label_is_not_cut :
  ~ (forall food_name calories,
       In (food_name, calories) nutrition_logs ->
       exists label value : string,
         row food_name calories = label ++ " " ++ value ++ " cal"
         /\ PyStr.len label = 45%nat
         /\ PyStr.len value = 8%nat).
Proof.
  intros H.
  destruct (H "California Gold Nutrition, CoQ10 with Bioperine" 0%float)
    as (label & value & E & Hl & Hv).
  { unfold nutrition_logs. do 13 right. left. reflexivity. }
  apply (f_equal PyStr.len) in E.
  rewrite !len_append, Hl, Hv in E.
  vm_compute in E. discriminate E.
Qed.

(** C3, amended: the report is the title, a rule of 50 dashes, one line per
    entry in the order of the list, the rule again, the line of the total
    labelled 總計 in the same layout, and the line of the rounded total.  A
    line holds the label followed by spaces up to 45 characters (a longer
    label is kept whole), a space, the calories with two decimal places
    preceded by spaces up to 8 characters (a longer numeral is kept whole),
    and " cal". *)
Theorem report_layout
  (logs : list (string * float)) (out : string) (total : pyval) (f : float) (r : Z) :
  total_of logs = Ok total ->
  to_float total = Ok f ->
  round total = Ok r ->
  report logs out =
    (Ok total,
     out ++ "卡路里明細計算:" ++ PyStr.nl
         ++ PyStr.mul "-" 50 ++ PyStr.nl
         ++ rows logs
         ++ PyStr.mul "-" 50 ++ PyStr.nl
         ++ PyStr.ljust 45 "總計" ++ " " ++ PyStr.rjust 8 (fixed2 f) ++ " cal" ++ PyStr.nl
         ++ "四捨五入後: " ++ PyStr.of_int r ++ " cal" ++ PyStr.nl)
  /\ (forall food_name calories rest,
        rows ((food_name, calories) :: rest) =
        row food_name calories ++ PyStr.nl ++ rows rest)
  /\ (forall food_name calories,
        row food_name calories =
          (food_name ++ PyStr.mul " " (45 - PyStr.len food_name))
          ++ " "
          ++ (PyStr.mul " " (8 - PyStr.len (fixed2 calories)) ++ fixed2 calories)
          ++ " cal"
        /\ PyStr.len (PyStr.ljust 45 food_name) = Nat.max 45 (PyStr.len food_name)
        /\ PyStr.len (PyStr.rjust 8 (fixed2 calories))
           = Nat.max 8 (PyStr.len (fixed2 calories))
        /\ PyStr.len (row food_name calories)
           = (Nat.max 45 (PyStr.len food_name) + 1
              + Nat.max 8 (PyStr.len (fixed2 calories)) + 4)%nat
        /\ (forall v, exact calories = Some v -> two_places (fixed2 calories))).
Proof.
  intros Ht Hf Hr.
  split; [now apply report_eq|].
  split; [reflexivity|].
  intros food_name calories.
  split; [reflexivity|].
  split; [apply len_ljust|].
  split; [apply len_rjust|].
  split; [|intros v Hv; now apply fixed2_two_places with v].
  unfold row. rewrite !len_append, len_ljust, len_rjust.
  change (PyStr.len " ") with 1%nat. change (PyStr.len " cal") with 4%nat.
  lia.
Qed.

(** The report of a list of two entries, one with a short label and one with
    a label of 47 characters. *)
Lemma report_layout_witness :
  report [ ("Broccoli", 57.57%float);
           ("California Gold Nutrition, CoQ10 with Bioperine", 0%float) ] "" =
    (Ok (PyFloat 57.57),
     "" ++ "卡路里明細計算:" ++ PyStr.nl
        ++ PyStr.mul "-" 50 ++ PyStr.nl
        ++ rows [ ("Broccoli", 57.57%float);
                  ("California Gold Nutrition, CoQ10 with Bioperine", 0%float) ]
        ++ PyStr.mul "-" 50 ++ PyStr.nl
        ++ PyStr.ljust 45 "總計" ++ " " ++ PyStr.rjust 8 (fixed2 57.57) ++ " cal"
        ++ PyStr.nl
        ++ "四捨五入後: " ++ PyStr.of_int 58 ++ " cal" ++ PyStr.nl)
  /\ (forall food_name calories rest,
        rows ((food_name, calories) :: rest) =
        row food_name calories ++ PyStr.nl ++ rows rest)
  /\ (forall food_name calories,
        row food_name calories =
          (food_name ++ PyStr.mul " " (45 - PyStr.len food_name))
          ++ " "
          ++ (PyStr.mul " " (8 - PyStr.len (fixed2 calories)) ++ fixed2 calories)
          ++ " cal"
        /\ PyStr.len (PyStr.ljust 45 food_name) = Nat.max 45 (PyStr.len food_name)
        /\ PyStr.len (PyStr.rjust 8 (fixed2 calories))
           = Nat.max 8 (PyStr.len (fixed2 calories))
        /\ PyStr.len (row food_name calories)
           = (Nat.max 45 (PyStr.len food_name) + 1
              + Nat.max 8 (PyStr.len (fixed2 calories)) + 4)%nat
        /\ (forall v, exact calories = Some v -> two_places (fixed2 calories))).
Proof.
  apply (report_layout
           [ ("Broccoli", 57.57%float);
             ("California Gold Nutrition, CoQ10 with Bioperine", 0%float) ]
           "" (PyFloat 57.57) 57.57%float 58);
    vm_compute; reflexivity.
Defined.

(** The rows of that list, as text. *)
Example rows_two_entries :
  rows [ ("Broccoli", 57.57%float);
         ("California Gold Nutrition, CoQ10 with Bioperine", 0%float) ] =
  lines [ "Broccoli                                         57.57 cal";
          "California Gold Nutrition, CoQ10 with Bioperine     0.00 cal" ].
Proof. vm_compute. reflexivity. Qed.

(** A numeral wider than 8 characters is kept whole as well. *)
Example wide_value_row :
  row "X" 1234567.5%float =
  "X                                             1234567.50 cal".
Proof. vm_compute. reflexivity. Qed.

(** ** The empty list *)

(** C7: over an empty list the loop leaves [total_calories] at its initial
    int 0, which is the float 0.0 where the script converts it and is printed
    as 0.00; the rounded total is 0. *)
Theorem empty_list_total :
  total_of [] = Ok (PyInt 0)
  /\ to_float (PyInt 0) = Ok 0%float
  /\ format_2f (PyInt 0) = Ok "0.00"
  /\ round (PyInt 0) = Ok 0%Z
  /\ (forall out,
        report [] out =
        (Ok (PyInt 0),
         out ++ "卡路里明細計算:" ++ PyStr.nl
             ++ PyStr.mul "-" 50 ++ PyStr.nl
             ++ PyStr.mul "-" 50 ++ PyStr.nl
             ++ PyStr.ljust 45 "總計" ++ " " ++ PyStr.rjust 8 "0.00" ++ " cal" ++ PyStr.nl
             ++ "四捨五入後: 0 cal" ++ PyStr.nl)).
Proof.
  split; [reflexivity|].
  split; [reflexivity|].
  split; [vm_compute; reflexivity|].
  split; [reflexivity|].
  intros out.
  rewrite (report_eq [] out (PyInt 0) 0%float 0 eq_refl eq_refl eq_refl).
  reflexivity.
Qed.

(** ** The rounding rule *)

(** C8: [round] returns an integer nearest to the exact value of a finite
    float, and the even one when the value lies halfway between two integers;
    so 0.5 and 2.5 go down and 1.5 and 3.5 go up.  An int is returned as it
    is. *)
Theorem round_is_half_to_even :
  (forall (x : float) (v : Q),
     exact x = Some v ->
     exists n : Z,
       round (PyFloat x) = Ok n
       /\ (Qabs (v - inject_Z n) <= 1 # 2)%Q
       /\ ((Qabs (v - inject_Z n) == 1 # 2)%Q -> Z.even n = true))
  /\ (forall z : Z, round (PyInt z) = Ok z)
  /\ round (PyFloat 0.5) = Ok 0%Z
  /\ round (PyFloat 1.5) = Ok 2%Z
  /\ round (PyFloat 2.5) = Ok 2%Z
  /\ round (PyFloat 3.5) = Ok 4%Z
  /\ round (PyFloat (-0.5)) = Ok 0%Z
  /\ round (PyFloat (-2.5)) = Ok (-2)%Z.
Proof.
  split.
  - intros x v Hx. exists (round_half_even v).
    split; [cbn [round]; unfold round_float; now rewrite Hx|].
    split; [apply round_half_even_nearest | apply round_half_even_tie].
  - split; [reflexivity|].
    repeat split; vm_compute; reflexivity.
Qed.

(** The rule at 2.5, halfway between 2 and 3. *)
Lemma round_is_half_to_even_witness :
  exists n : Z,
    round (PyFloat 2.5) = Ok n
    /\ (Qabs ((5 # 2) - inject_Z n) <= 1 # 2)%Q
    /\ ((Qabs ((5 # 2) - inject_Z n) == 1 # 2)%Q -> Z.even n = true).
Proof.
  apply (proj1 round_is_half_to_even 2.5%float (5 # 2)).
  vm_compute. reflexivity.
Defined.

(** ** Failures and the exit status *)

(** What lies outside the embedded data: were a value nan, [round] would
    raise after the table was printed. *)
Example nan_total_raises :
  fst (script [("X", nan)] backend_value "") = Raise ValueError.
Proof. vm_compute. reflexivity. Qed.

(** ** More on [round] (lines 39 and 47) *)
Section RoundMore.

Local Open Scope Q_scope.

Lemma Qabs_of_neg (x y : Q) : x <= 0 -> - x == y -> Qabs x == y.
Proof.
  intros H E. rewrite <- E. now apply Qabs_neg.
Qed.

Lemma Qabs_of_pos (x y : Q) : 0 <= x -> x == y -> Qabs x == y.
Proof.
  intros H E. rewrite <- E. now apply Qabs_pos.
Qed.

(** A distance of exactly 1/2, without the absolute value. *)
Lemma Qabs_half (x : Q) : Qabs x == 1 # 2 <-> x == 1 # 2 \/ x == - (1 # 2).
Proof.
  split.
  - apply (Qabs_case x (fun y => y == 1 # 2 -> x == 1 # 2 \/ x == - (1 # 2)));
      intros H E; [left | right]; lra.
  - intros [E|E]; [apply Qabs_of_pos | apply Qabs_of_neg]; lra.
Qed.

(** Rounding to nearest with ties to even has one answer. *)
Lemma round_half_even_unique (v : Q) (n : Z) :
  Qabs (v - inject_Z n) <= 1 # 2 ->
  (Qabs (v - inject_Z n) == 1 # 2 -> Z.even n = true) ->
  round_half_even v = n.
Proof.
  intros Hn He.
  pose proof (round_half_even_nearest v) as Hm.
  pose proof (round_half_even_tie v) as Hme.
  set (m := round_half_even v) in *. clearbody m.
  rewrite Qabs_half in He, Hme.
  apply Qabs_Qle_condition in Hn. apply Qabs_Qle_condition in Hm.
  assert (Hd : (-1 <= n - m <= 1)%Z).
  { unfold Z.sub. split; rewrite Zle_Qle, inject_Z_plus, inject_Z_opp;
      [change (inject_Z (-1)) with (-1) | change (inject_Z 1) with 1]; lra. }
  destruct (Z.eq_dec m n) as [E|NE]; [exact E|exfalso].
  assert (Hc : (n = m + 1 \/ m = n + 1)%Z) by lia.
  destruct Hc as [-> | ->];
    rewrite inject_Z_plus in *; change (inject_Z 1) with 1 in *.
  - assert (E1 : Z.even (m + 1) = true) by (apply He; right; lra).
    assert (E2 : Z.even m = true) by (apply Hme; left; lra).
    rewrite Z.even_add, E2 in E1. discriminate E1.
  - assert (E1 : Z.even (n + 1) = true) by (apply Hme; right; lra).
    assert (E2 : Z.even n = true) by (apply He; left; lra).
    rewrite Z.even_add, E2 in E1. discriminate E1.
Qed.

Lemma round_half_even_comp (v w : Q) : v == w -> round_half_even v = round_half_even w.
Proof.
  intros E. apply round_half_even_unique.
  - pose proof (round_half_even_nearest w) as H.
    apply Qabs_Qle_condition in H. apply Qabs_Qle_condition. lra.
  - intros T. apply round_half_even_tie.
    rewrite Qabs_half in *. destruct T; [left | right]; lra.
Qed.

Lemma round_half_even_opp (v : Q) : round_half_even (- v) = (- round_half_even v)%Z.
Proof.
  apply round_half_even_unique; rewrite inject_Z_opp.
  - pose proof (round_half_even_nearest v) as H.
    apply Qabs_Qle_condition in H. apply Qabs_Qle_condition. lra.
  - intros T. rewrite Z.even_opp. apply round_half_even_tie.
    rewrite Qabs_half in *. destruct T; [right | left]; lra.
Qed.

Lemma round_half_even_monotone (v w : Q) :
  v <= w -> (round_half_even v <= round_half_even w)%Z.
Proof.
  intros Hvw.
  destruct (Qlt_le_dec v w) as [Hlt|Hge].
  - pose proof (round_half_even_nearest v) as Hv.
    pose proof (round_half_even_nearest w) as Hw.
    apply Qabs_Qle_condition in Hv. apply Qabs_Qle_condition in Hw.
    apply Z.lt_succ_r. unfold Z.succ.
    rewrite Zlt_Qlt, inject_Z_plus. change (inject_Z 1) with 1. lra.
  - rewrite (round_half_even_comp v w) by lra. lia.
Qed.

(** What [round] returns for a float comes from its exact value. *)
Lemma round_float_inv (x : float) (n : Z) :
  round (PyFloat x) = Ok n ->
  exists v, exact x = Some v /\ n = round_half_even v.
Proof.
  cbn [round]. unfold round_float.
  destruct (exact x) as [v|].
  - intros H. exists v. split; [reflexivity | congruence].
  - destruct (Prim2SF x); discriminate.
Qed.

Lemma exact_opp (x : float) (v : Q) :
  exact x = Some v -> exists w, exact (- x) = Some w /\ w == - v.
Proof.
  unfold exact. rewrite opp_spec.
  destruct (Prim2SF x) as [s|s| |s m e]; cbn [SFopp exact_sf];
    intros H; try discriminate H.
  - exists 0. split; [reflexivity|].
    assert (E : 0 = v) by congruence. rewrite <- E. lra.
  - eexists. split; [reflexivity|].
    assert (E : Qred (if s then - magnitude m e else magnitude m e) = v)
      by congruence.
    rewrite <- E, !Qred_correct. destruct s; cbn [negb]; lra.
Qed.

(** X4: the result of [round] is the only integer within 1/2 of the exact
    value that is even when the distance is exactly 1/2. *)
Theorem round_unique (x : float) (v : Q) (n : Z) :
  exact x = Some v ->
  Qabs (v - inject_Z n) <= 1 # 2 ->
  (Qabs (v - inject_Z n) == 1 # 2 -> Z.even n = true) ->
  round (PyFloat x) = Ok n.
Proof.
  intros Hx Hn He.
  cbn [round]. unfold round_float. rewrite Hx. f_equal.
  now apply round_half_even_unique.
Qed.

Lemma round_unique_witness : round (PyFloat 3.5) = Ok 4%Z.
Proof.
  apply (round_unique 3.5%float (7 # 2) 4).
  - vm_compute. reflexivity.
  - apply Qle_bool_iff. vm_compute. reflexivity.
  - intros _. reflexivity.
Defined.

(** X5: a float whose value is a whole number rounds to that number. *)
Theorem round_of_whole (x : float) (v : Q) (n : Z) :
  exact x = Some v ->
  v == inject_Z n ->
  round (PyFloat x) = Ok n.
Proof.
  intros Hx Hv.
  cbn [round]. unfold round_float. rewrite Hx. f_equal.
  apply round_half_even_unique.
  - apply Qabs_Qle_condition. lra.
  - rewrite Qabs_half. intros [T|T]; lra.
Qed.

Lemma round_of_whole_witness : round (PyFloat 165.00) = Ok 165%Z.
Proof.
  apply (round_of_whole 165.00%float 165 165); vm_compute; reflexivity.
Defined.

(** X6: [round] is symmetric about zero: negating the float negates the
    result. *)
Theorem round_opp (x : float) (n : Z) :
  round (PyFloat x) = Ok n ->
  round (PyFloat (- x)) = Ok (- n)%Z.
Proof.
  intros H. destruct (round_float_inv x n H) as (v & Hv & ->).
  destruct (exact_opp x v Hv) as (w & Hw & E).
  cbn [round]. unfold round_float. rewrite Hw. f_equal.
  rewrite (round_half_even_comp w (- v) E). apply round_half_even_opp.
Qed.

Lemma round_opp_witness : round (PyFloat (- 2.5)) = Ok (- 2)%Z.
Proof.
  apply (round_opp 2.5%float 2). vm_compute. reflexivity.
Defined.

(** X7: [round] keeps the order: a float that is not larger does not round to
    a larger int. *)
Theorem round_monotone (x1 x2 : float) (v1 v2 : Q) (n1 n2 : Z) :
  exact x1 = Some v1 ->
  exact x2 = Some v2 ->
  v1 <= v2 ->
  round (PyFloat x1) = Ok n1 ->
  round (PyFloat x2) = Ok n2 ->
  (n1 <= n2)%Z.
Proof.
  intros H1 H2 Hle R1 R2.
  cbn [round] in R1, R2. unfold round_float in R1, R2.
  rewrite H1 in R1. rewrite H2 in R2.
  injection R1 as <-. injection R2 as <-.
  now apply round_half_even_monotone.
Qed.

Lemma round_monotone_witness : (2 <= 2)%Z.
Proof.
  apply (round_monotone 1.5%float 2.5%float (3 # 2) (5 # 2) 2 2);
    vm_compute; first [reflexivity | discriminate].
Defined.

End RoundMore.

(** ** The whole run (lines 29-48) *)
Section WholeRun.

(** When [round] raises on line 39 the run stops there, after the line of
    the total. *)
Lemma script_raises (logs : list (string * float)) (backend : float)
  (out : string) (t : pyval) (f : float) (e : exn) :
  total_of logs = Ok t ->
  to_float t = Ok f ->
  round t = Raise e ->
  script logs backend out = (Raise e, out ++ table logs f).
Proof.
  intros Ht Hf Hr.
  rewrite total_of_eq in Ht. injection Ht as Ht.
  unfold script, report.
  unfold bind at 1. unfold bind at 1, print at 1. unfold bind at 1, print at 1.
  unfold bind at 1. rewrite loop_int_0, Ht.
  unfold bind at 1, print at 1.
  unfold bind at 1, total_row, bind at 1, lift at 1, format_2f.
  rewrite Hf. unfold ret at 1.
  unfold bind at 1, print at 1.
  unfold bind at 1, lift at 1. rewrite Hr.
  unfold table. now rewrite !append_assoc.
Qed.

Lemma total_to_float (logs : list (string * float)) :
  to_float (float_sum (map snd logs)) =
  Ok (fold_left PrimFloat.add (map snd logs) 0%float).
Proof.
  destruct logs as [|[n c] rest]; reflexivity.
Qed.

(** X1: whenever [round] accepts the total, the run writes the table and the
    summary and nothing else; the line after the table and the line for the
    UI show the same integer, and the distance printed is
    [abs(total - backend)]. *)
Theorem script_output (logs : list (string * float)) (backend : float)
  (out : string) (t : pyval) (r : Z) :
  total_of logs = Ok t ->
  round t = Ok r ->
  let f := fold_left PrimFloat.add (map snd logs) 0%float in
  script logs backend out =
  (Ok tt, out ++ table logs f ++ summary r backend (abs (f - backend))).
Proof.
  intros Ht Hr f.
  assert (Hf : to_float t = Ok f).
  { rewrite total_of_eq in Ht. injection Ht as <-. apply total_to_float. }
  unfold script. unfold bind at 1.
  rewrite (report_eq logs out t f r Ht Hf Hr).
  unfold bind at 1, compare.
  unfold bind at 1, print at 1. unfold bind at 1, lift at 1.
  unfold difference, PyNum.sub. rewrite Hf.
  unfold print at 1. unfold ui, bind at 1, lift at 1. rewrite Hr.
  unfold print, table, summary. now rewrite !append_assoc.
Qed.

Lemma script_output_witness :
  script [("Fried Egg", 90.00%float); ("Canola oil", 53.14%float)] 143%float "" =
  (Ok tt,
   "" ++ table [("Fried Egg", 90.00%float); ("Canola oil", 53.14%float)]
               (fold_left PrimFloat.add [90.00; 53.14] 0)%float
      ++ summary 143 143
           (abs (fold_left PrimFloat.add [90.00; 53.14] 0 - 143))%float).
Proof.
  apply (script_output
           [("Fried Egg", 90.00%float); ("Canola oil", 53.14%float)]
           143%float "" (PyFloat 143.14) 143);
    vm_compute; reflexivity.
Defined.

(** X2: when the total is nan or infinite the run prints the table with the
    line of the total and then fails on line 39, with ValueError for nan and
    OverflowError for an infinity; none of lines 39-48 is printed and the
    exit status is 1. *)
Theorem script_fails_after_table (logs : list (string * float)) (backend : float)
  (out : string) (t : float) :
  total_of logs = Ok (PyFloat t) ->
  exact t = None ->
  script logs backend out = (Raise (round_error t), out ++ table logs t)
  /\ exit_status (script logs backend out) = 1%Z.
Proof.
  intros Ht Hx.
  assert (Hr : round (PyFloat t) = Raise (round_error t)).
  { cbn [round]. unfold round_float, round_error. rewrite Hx.
    destruct (Prim2SF t); reflexivity. }
  rewrite (script_raises logs backend out (PyFloat t) t _ Ht eq_refl Hr).
  split; reflexivity.
Qed.

(** Two finite values whose sum overflows. *)
Lemma script_fails_after_table_witness :
  script [("a", 1e308%float); ("b", 1e308%float)] backend_value "" =
    (Raise OverflowError,
     "" ++ table [("a", 1e308%float); ("b", 1e308%float)] infinity)
  /\ exit_status
       (script [("a", 1e308%float); ("b", 1e308%float)] backend_value "") = 1%Z.
Proof.
  apply (script_fails_after_table
           [("a", 1e308%float); ("b", 1e308%float)] backend_value "" infinity);
    vm_compute; reflexivity.
Defined.

(** X3: the exit status is 0 exactly when [round] accepts the total, that
    is, when the total is not nan and not infinite. *)
Theorem exit_status_zero_iff (logs : list (string * float)) (backend : float)
  (out : string) :
  exit_status (script logs backend out) = 0%Z
  <-> exists v, exact (fold_left PrimFloat.add (map snd logs) 0%float) = Some v.
Proof.
  set (f := fold_left PrimFloat.add (map snd logs) 0%float).
  pose proof (total_to_float logs) as Hf. fold f in Hf.
  split.
  - intros Hs. destruct (exact f) as [v|] eqn:Hx; [now exists v | exfalso].
    destruct (round (float_sum (map snd logs))) as [r|e] eqn:Hr.
    + destruct logs as [|[n c] rest].
      * vm_compute in Hx. discriminate Hx.
      * cbn [map snd float_sum round] in Hr. unfold round_float in Hr.
        cbn [map snd] in f. fold f in Hr. rewrite Hx in Hr.
        destruct (Prim2SF f); discriminate Hr.
    + rewrite (script_raises logs backend out _ f e (total_of_eq logs) Hf Hr) in Hs.
      discriminate Hs.
  - intros [v Hx].
    apply script_succeeds with
      (match float_sum (map snd logs) with
       | PyInt z => z
       | PyFloat _ => round_half_even v
       end).
    destruct logs as [|[n c] rest]; [reflexivity|].
    cbn [map snd float_sum round]. unfold round_float.
    cbn [map snd] in f. fold f. now rewrite Hx.
Qed.

End WholeRun.

(** ** Column widths (lines 31, 34 and 37) *)
Section Widths.

Lemma forall_from_spec (f : Z -> bool) (n : nat) :
  forall z : Z,
    forall_from f n z = true ->
    forall x : Z, (z <= x < z + Z.of_nat n)%Z -> f x = true.
Proof.
  induction n as [|n IH]; intros z H x Hx.
  - lia.
  - cbn [forall_from] in H. apply andb_prop in H. destruct H as [Hz Hrest].
    destruct (Z.eq_dec x z) as [->|Hne]; [exact Hz|].
    apply (IH (z + 1)%Z Hrest). lia.
Qed.

(** An int below 100000 has at most five digits, one below 10000 at most
    four. *)
Lemma of_int_len_5 (q : Z) :
  (0 <= q < 100000)%Z -> (PyStr.len (PyStr.of_int q) <= 5)%nat.
Proof.
  intros Hq. apply Nat.leb_le.
  apply (forall_from_spec (fun z => Nat.leb (PyStr.len (PyStr.of_int z)) 5)
           (Z.to_nat 100000) 0%Z); [vm_compute; reflexivity | lia].
Qed.

Lemma of_int_len_4 (q : Z) :
  (0 <= q < 10000)%Z -> (PyStr.len (PyStr.of_int q) <= 4)%nat.
Proof.
  intros Hq. apply Nat.leb_le.
  apply (forall_from_spec (fun z => Nat.leb (PyStr.len (PyStr.of_int z)) 4)
           (Z.to_nat 10000) 0%Z); [vm_compute; reflexivity | lia].
Qed.

Lemma two_digits_len (r : Z) :
  (0 <= r < 100)%Z -> PyStr.len (two_digits r) = 2%nat.
Proof.
  intros Hr. apply Nat.eqb_eq.
  apply (forall_from_spec (fun z => Nat.eqb (PyStr.len (two_digits z)) 2)
           (Z.to_nat 100) 0%Z); [vm_compute; reflexivity | lia].
Qed.

Lemma decimal2_len (neg : bool) (h : Z) :
  (0 <= h < (if neg then 1000000 else 10000000))%Z ->
  (PyStr.len (decimal2 neg h) <= 8)%nat.
Proof.
  intros Hh. unfold decimal2. rewrite !len_append.
  rewrite two_digits_len by (apply Z.mod_pos_bound; lia).
  change (PyStr.len ".") with 1%nat.
  destruct neg.
  - change (PyStr.len "-") with 1%nat.
    pose proof (of_int_len_4 (h / 100)) as H.
    assert (0 <= h / 100 < 10000)%Z
      by (split; [apply Z.div_pos | apply Z.div_lt_upper_bound]; lia).
    lia.
  - change (PyStr.len "") with 0%nat.
    pose proof (of_int_len_5 (h / 100)) as H.
    assert (0 <= h / 100 < 100000)%Z
      by (split; [apply Z.div_pos | apply Z.div_lt_upper_bound]; lia).
    lia.
Qed.

(** X8: a row is exactly 58 characters wide when the label has at most 45
    characters and the calories, rounded to hundredths, fit in 8 characters:
    a magnitude below 99999.995, or below 9999.995 when the sign bit is
    set. *)
Theorem row_is_58_wide (food_name : string) (calories : float) (v : Q) :
  (PyStr.len food_name <= 45)%nat ->
  exact calories = Some v ->
  Qabs v < (if sign_sf (Prim2SF calories) then 9999.995 else 99999.995) ->
  PyStr.len (row food_name calories) = 58%nat.
Proof.
  intros Hl Hx Hv.
  assert (Hw : (PyStr.len (fixed2 calories) <= 8)%nat).
  { unfold fixed2. rewrite Hx. apply decimal2_len.
    pose proof (round_half_even_nearest (Qabs v * 100)) as Hn.
    apply Qabs_Qle_condition in Hn.
    split.
    - apply round_half_even_nonneg. pose proof (Qabs_nonneg v). lra.
    - rewrite Zlt_Qlt.
      destruct (sign_sf (Prim2SF calories)).
      + change (inject_Z 1000000) with 1000000. lra.
      + change (inject_Z 10000000) with 10000000. lra. }
  unfold row. rewrite !len_append, len_ljust, len_rjust.
  change (PyStr.len " ") with 1%nat. change (PyStr.len " cal") with 4%nat.
  lia.
Qed.

Lemma row_is_58_wide_witness :
  PyStr.len (row "淮山麵" 351.51) = 58%nat.
Proof.
  apply (row_is_58_wide "淮山麵" 351.51%float (1545957329118167 # 4398046511104)).
  - vm_compute. lia.
  - vm_compute. reflexivity.
  - vm_compute. reflexivity.
Defined.

(** X9: every row is at least 58 characters wide, 8 more than the rule of 50
    dashes printed above and below the rows. *)
Theorem rows_are_wider_than_rule (food_name : string) (calories : float) :
  PyStr.len (PyStr.mul "-" 50) = 50%nat
  /\ (58 <= PyStr.len (row food_name calories))%nat.
Proof.
  split; [reflexivity|].
  unfold row. rewrite !len_append, len_ljust, len_rjust.
  change (PyStr.len " ") with 1%nat. change (PyStr.len " cal") with 4%nat.
  lia.
Qed.

(** X11: a value of magnitude at most 0.005 is printed as zero, with a minus
    sign when its sign bit is set, as for the float [-0.0]. *)
Theorem tiny_value_prints_zero (x : float) (v : Q) :
  exact x = Some v ->
  Qabs v <= 0.005 ->
  fixed2 x = if sign_sf (Prim2SF x) then "-0.00" else "0.00".
Proof.
  intros Hx Hv. unfold fixed2. rewrite Hx.
  rewrite (round_half_even_unique (Qabs v * 100) 0).
  - destruct (sign_sf (Prim2SF x)); reflexivity.
  - pose proof (Qabs_nonneg v). apply Qabs_Qle_condition.
    change (inject_Z 0) with 0. lra.
  - intros _. reflexivity.
Qed.

Lemma tiny_value_prints_zero_witness : fixed2 (-0.0015) = "-0.00".
Proof.
  apply (tiny_value_prints_zero (-0.0015)%float
           (-3458764513820541 # 2305843009213693952)).
  - vm_compute. reflexivity.
  - vm_compute. discriminate.
Defined.

End Widths.

(** ** The accumulation (lines 33-35) *)
Section Accumulation.

Local Open Scope float_scope.

Lemma rows_app (l1 l2 : list (string * float)) :
  rows (l1 ++ l2) = (rows l1 ++ rows l2)%string.
Proof.
  induction l1 as [|[n c] l1 IH]; cbn [rows app]; [reflexivity|].
  now rewrite IH, !append_assoc.
Qed.

(** X15: the loop over a list given in two parts is the loop over the first
    part followed by the loop over the second, which starts from the total
    and the output the first one left; a failure in the first part ends the
    whole loop. *)
Theorem loop_app (l1 l2 : list (string * float)) :
  forall (total_calories : pyval) (out : string),
    loop (l1 ++ l2) total_calories out =
    match loop l1 total_calories out with
    | (Ok t, out') => loop l2 t out'
    | (Raise e, out') => (Raise e, out')
    end.
Proof.
  induction l1 as [|[n c] l1 IH]; intros total_calories out.
  - reflexivity.
  - cbn [app loop].
    unfold bind, print, lift.
    destruct (iadd total_calories c) as [t|e]; [apply IH | reflexivity].
Qed.

(** Adding the float zero changes nothing, except for the float [-0.0]. *)
Lemma add_zero_r (t : float) : Prim2SF t <> S754_zero true -> t + 0 = t.
Proof.
  intros Ht.
  assert (E : Prim2SF (t + 0) = Prim2SF t).
  { rewrite add_spec. change (Prim2SF 0) with (S754_zero false).
    unfold SF64add. destruct (Prim2SF t) as [[|]|[|]| |s m e];
      try reflexivity. now contradiction Ht. }
  rewrite <- (SF2Prim_Prim2SF (t + 0)), E. apply SF2Prim_Prim2SF.
Qed.

(** X10: an entry of 0.00 calories gets its row and leaves the total as it
    is, wherever it stands in the list, as long as the running total before
    it is not the float [-0.0]. *)
Theorem zero_entry_keeps_total
  (l1 l2 : list (string * float)) (food_name : string) :
  Prim2SF (fold_left PrimFloat.add (map snd l1) 0) <> S754_zero true ->
  (exists t t' : pyval,
     total_of (l1 ++ (food_name, 0) :: l2) = Ok t
     /\ total_of (l1 ++ l2) = Ok t'
     /\ to_float t = to_float t')
  /\ rows (l1 ++ (food_name, 0) :: l2) =
     (rows l1 ++ row food_name 0 ++ PyStr.nl ++ rows l2)%string.
Proof.
  intros Hz. split.
  - exists (float_sum (map snd (l1 ++ (food_name, 0) :: l2))).
    exists (float_sum (map snd (l1 ++ l2))).
    split; [apply total_of_eq|]. split; [apply total_of_eq|].
    rewrite !total_to_float. f_equal.
    rewrite !map_app, !fold_left_app. cbn [map snd fold_left].
    now rewrite add_zero_r.
  - now rewrite rows_app.
Qed.

Lemma zero_entry_keeps_total_witness :
  (exists t t' : pyval,
     total_of ([("Fried Egg", 90.00)] ++ ("NOW Foods, NAC", 0) :: [("Broccoli", 57.57)])
       = Ok t
     /\ total_of ([("Fried Egg", 90.00)] ++ [("Broccoli", 57.57)]) = Ok t'
     /\ to_float t = to_float t')
  /\ rows ([("Fried Egg", 90.00)] ++ ("NOW Foods, NAC", 0) :: [("Broccoli", 57.57)]) =
     (rows [("Fried Egg", 90.00)] ++ row "NOW Foods, NAC" 0 ++ PyStr.nl
        ++ rows [("Broccoli", 57.57)])%string.
Proof.
  apply (zero_entry_keeps_total [("Fried Egg", 90.00)] [("Broccoli", 57.57)]
           "NOW Foods, NAC").
  vm_compute. discriminate.
Defined.

(** X12: the total depends on the order of the entries: there are two lists
    with the same entries whose totals differ. *)
Theorem total_depends_on_order :
  exists l1 l2 : list (string * float),
    Permutation l1 l2 /\ total_of l1 <> total_of l2.
Proof.
  exists [("a", 0.1); ("b", 0.2); ("c", 0.3)].
  exists (rev [("a", 0.1); ("b", 0.2); ("c", 0.3)]).
  split; [apply Permutation_rev|].
  intros H.
  apply (f_equal (fun r => match r with
                           | Ok (PyFloat f) => Prim2SF f
                           | _ => S754_nan
                           end)) in H.
  vm_compute in H. discriminate H.
Qed.

End Accumulation.

(** ** The distance from the backend value (line 44) *)
Section Distance.

Local Open Scope float_scope.

Lemma SFabs_binary_round (m : positive) (e : Z) :
  SFabs (binary_round prec emax true m e) = SFabs (binary_round prec emax false m e).
Proof.
  unfold binary_round.
  destruct (shl_align m e _) as [mz ez].
  unfold binary_round_aux.
  destruct (shr_fexp prec emax (Z.pos mz) ez loc_Exact) as [mrs1 e1].
  destruct (shr_fexp prec emax _ e1 loc_Exact) as [mrs2 e2].
  destruct (shr_m mrs2); [reflexivity | | reflexivity].
  destruct (Z.leb e2 (emax - prec)); reflexivity.
Qed.

Lemma SFabs_binary_normalize_opp (m e : Z) :
  SFabs (binary_normalize prec emax (- m) e false)
  = SFabs (binary_normalize prec emax m e false).
Proof.
  destruct m as [|p|p]; cbn [Z.opp binary_normalize];
    [reflexivity | apply SFabs_binary_round | symmetry; apply SFabs_binary_round].
Qed.

Lemma SFabs_sub_comm (x y : spec_float) :
  SFabs (SFsub prec emax x y) = SFabs (SFsub prec emax y x).
Proof.
  destruct x as [sx|sx| |sx mx ex], y as [sy|sy| |sy my ey];
    try (destruct sx, sy; reflexivity);
    try (destruct sx; reflexivity); try (destruct sy; reflexivity);
    try reflexivity.
  cbn [SFsub]. rewrite (Z.min_comm ey ex).
  set (a := cond_Zopp sx _). set (b := cond_Zopp sy _).
  replace (b - a)%Z with (- (a - b))%Z by lia.
  symmetry. apply SFabs_binary_normalize_opp.
Qed.

(** X13: the distance is the same in both directions:
    [abs(a - b)] and [abs(b - a)] are the same float. *)
Theorem difference_is_symmetric (a b : float) :
  difference (PyFloat a) b = difference (PyFloat b) a.
Proof.
  unfold difference, PyNum.sub. cbn [to_float]. f_equal.
  rewrite <- (SF2Prim_Prim2SF (abs (a - b))), <- (SF2Prim_Prim2SF (abs (b - a))).
  f_equal. rewrite !abs_spec, !sub_spec. apply SFabs_sub_comm.
Qed.

(** X14: when the total is the backend value itself, and finite, the distance
    is the float 0.0 and the comparison prints 0.00. *)
Theorem difference_of_equal (t : float) (v : Q) (out : string) :
  exact t = Some v ->
  difference (PyFloat t) t = Ok 0
  /\ compare (PyFloat t) t out =
     (Ok tt,
      out ++ PyStr.nl ++ "後端 API 回傳: " ++ fixed2 t ++ " cal" ++ PyStr.nl
          ++ "差異: 0.00 cal" ++ PyStr.nl)%string.
Proof.
  intros Hx.
  assert (Hd : difference (PyFloat t) t = Ok 0).
  { unfold difference, PyNum.sub. cbn [to_float]. f_equal.
    rewrite <- (SF2Prim_Prim2SF (abs (t - t))).
    rewrite abs_spec, sub_spec. unfold exact in Hx.
    destruct (Prim2SF t) as [[|]|s| |s m e]; try discriminate Hx;
      try reflexivity.
    unfold SF64sub. cbn [SFsub]. rewrite Z.sub_diag. reflexivity. }
  split; [exact Hd|].
  unfold compare, bind, print, lift. rewrite Hd.
  change (fixed2 0) with "0.00"%string.
  now rewrite !append_assoc.
Qed.

Lemma difference_of_equal_witness :
  difference (PyFloat backend_value) backend_value = Ok 0
  /\ compare (PyFloat backend_value) backend_value "" =
     (Ok tt,
      "" ++ PyStr.nl ++ "後端 API 回傳: " ++ fixed2 backend_value ++ " cal" ++ PyStr.nl
         ++ "差異: 0.00 cal" ++ PyStr.nl)%string.
Proof.
  apply (difference_of_equal backend_value (6245160075070013 # 2199023255552) "").
  vm_compute. reflexivity.
Defined.

End Distance.

(** ** The encoding of the standard output *)
Section Encoding.

Lemma loop_on_utf8 (logs : list (string * float)) :
  forall (total_calories : pyval) (out : string),
    loop_on UTF8 logs total_calories out = loop logs total_calories out.
Proof.
  induction logs as [|[n c] rest IH]; intros total_calories out.
  - reflexivity.
  - cbn [loop_on loop]. unfold bind, lift.
    cbv [print_on encodable print].
    destruct (iadd total_calories c) as [t|e]; [apply IH | reflexivity].
Qed.

Lemma script_on_utf8 (logs : list (string * float)) (backend : float) (out : string) :
  script_on UTF8 logs backend out = script logs backend out.
Proof.
  unfold script_on, script, report_on, report, compare_on, compare, ui_on, ui.
  unfold bind, lift. cbv [print_on encodable print].
  rewrite loop_on_utf8. reflexivity.
Qed.

(** The title of line 30 is not ASCII, so on an ASCII standard output the
    first [print] fails, whatever the list. *)
Lemma script_on_ascii (logs : list (string * float)) (backend : float) (out : string) :
  script_on ASCII logs backend out = (Raise UnicodeEncodeError, out).
Proof.
  assert (H : print_on ASCII "卡路里明細計算:" out = (Raise UnicodeEncodeError, out))
    by reflexivity.
  unfold script_on, report_on. unfold bind at 1. unfold bind at 1.
  rewrite H. reflexivity.
Qed.

(** The exit status of the script on a UTF-8 standard output. *)
Lemma exit_zero_iff_finite (logs : list (string * float)) (backend : float)
  (out : string) :
  exit_status (script logs backend out) = 0%Z
  <-> exists v, exact (fold_left PrimFloat.add (map snd logs) 0%float) = Some v.
Proof.
  set (f := fold_left PrimFloat.add (map snd logs) 0%float).
  pose proof (total_to_float logs) as Hf. fold f in Hf.
  split.
  - intros Hs. destruct (exact f) as [v|] eqn:Hx; [now exists v | exfalso].
    destruct (round (float_sum (map snd logs))) as [r|e] eqn:Hr.
    + destruct logs as [|[n c] rest].
      * vm_compute in Hx. discriminate Hx.
      * cbn [map snd float_sum round] in Hr. unfold round_float in Hr.
        cbn [map snd] in f. fold f in Hr. rewrite Hx in Hr.
        destruct (Prim2SF f); discriminate Hr.
    + rewrite (script_raises logs backend out _ f e (total_of_eq logs) Hf Hr) in Hs.
      discriminate Hs.
  - intros [v Hx].
    apply script_succeeds with
      (match float_sum (map snd logs) with
       | PyInt z => z
       | PyFloat _ => round_half_even v
       end).
    destruct logs as [|[n c] rest]; [reflexivity|].
    cbn [map snd float_sum round]. unfold round_float.
    cbn [map snd] in f. fold f. now rewrite Hx.
Qed.

Lemma round_raises (t : float) :
  exact t = None -> round (PyFloat t) = Raise (round_error t).
Proof.
  intros Hx. cbn [round]. unfold round_float, round_error. rewrite Hx.
  destruct (Prim2SF t); reflexivity.
Qed.

End Encoding.

(** ** Failures and the exit status, all lists *)

(** The claim C9 as the specification words it fails: values that pass
    through the addition can end the run with a non-zero status.  Two finite
    values whose sum overflows make [round] raise. *)
Lemma some_totals_exit_1 :
  ~ (forall (logs : list (string * float)) (backend : float) (out : string),
       exit_status (script logs backend out) = 0%Z).
Proof.
  intros H.
  specialize (H [("a", 1e308%float); ("b", 1e308%float)] backend_value "").
  vm_compute in H. discriminate H.
Qed.

(** C9, amended: nothing validates the entries and the script has no raise
    of its own: the loop accepts every list and adds the values as they are.
    A run on a UTF-8 standard output ends with status 0 exactly when the
    total is a finite number, which covers the empty list and negative or
    zero calories; a nan total makes [round] raise ValueError and an
    infinite one OverflowError, after the table is printed.  The file as it
    is ends with status 0 on a UTF-8 standard output, and with
    UnicodeEncodeError before anything is written on an ASCII one. *)
Theorem exit_paths :
  (forall logs out,
     loop logs (PyInt 0) out = (Ok (float_sum (map snd logs)), out ++ rows logs))
  /\ (forall logs backend out,
        exit_status (script logs backend out) = 0%Z
        <-> exists v, exact (fold_left PrimFloat.add (map snd logs) 0%float) = Some v)
  /\ (forall logs backend out t,
        total_of logs = Ok (PyFloat t) ->
        exact t = None ->
        script logs backend out = (Raise (round_error t), out ++ table logs t))
  /\ (forall backend out, exit_status (script [] backend out) = 0%Z)
  /\ exit_status (script [("", (-5.5)%float); ("X", 0%float)] backend_value "") = 0%Z
  /\ (forall w : invocation,
        stdout_encoding w = UTF8 -> exit_status (main w) = 0%Z)
  /\ (forall w : invocation,
        stdout_encoding w = ASCII -> main w = (Raise UnicodeEncodeError, "")).
Proof.
  split; [apply loop_int_0|].
  split; [apply exit_zero_iff_finite|].
  split.
  { intros logs backend out t Ht Hx.
    apply (script_raises logs backend out (PyFloat t) t _ Ht eq_refl).
    now apply round_raises. }
  split; [intros backend out; now apply script_succeeds with 0%Z|].
  split; [vm_compute; reflexivity|].
  split.
  - intros w Hw. unfold main. rewrite Hw, script_on_utf8.
    vm_compute. reflexivity.
  - intros w Hw. unfold main. rewrite Hw. apply script_on_ascii.
Qed.

(** A list with a nan value: the table is printed, then [round] raises
    ValueError. *)
Lemma exit_paths_witness :
  script [("X", nan)] backend_value "" =
  (Raise (round_error nan), "" ++ table [("X", nan)] nan).
Proof.
  apply (proj1 (proj2 (proj2 exit_paths)) [("X", nan)] backend_value "" nan);
    vm_compute; reflexivity.
Defined.

(** ** Runs and their invocation *)



